(** * Beras: the Dense (affine) layer of [beras/layers.py]

    A shallow embedding of the [Dense] class and of the part of numpy it
    calls, followed by the properties of the layer.

    Arrays are modelled the way numpy stores them: a shape and a flat,
    row-major buffer.  Array elements range over an abstract scalar type
    with the four constants the code needs ([zero], [one], [add], [mul]);
    no arithmetic law is assumed of them, and the one theorem that needs a
    property of the entries of its input states it as a premise.  The layer
    is run at the integers and at IEEE binary64 floats.  Python exceptions are values of [PyError]; a method that may raise
    returns a [result]. *)

From Stdlib Require Import String Ascii List Arith Lia ZArith Bool.
From Stdlib Require PrimFloat.
From stdpp Require Import base list.
Import ListNotations.
Local Open Scope string_scope.
Local Open Scope list_scope.
Local Open Scope nat_scope.

(** ** Exceptions *)

(** The exceptions the modelled code can end in, one constructor per place
    that raises.  Only [LayerValueError] comes from a [raise] statement of
    the layer itself (line 108); the others are raised by the interpreter or
    by numpy underneath the layer and just pass through it. *)
Inductive PyError : Type :=
| LayerValueError (msg : string)    (* raise ValueError(msg) in _initialize_weight *)
| PyAttributeError (attr : string)  (* reading an attribute that was never set *)
| PyIndexError                      (* subscript out of range *)
| PyUnpackError                     (* tuple unpacking with the wrong arity *)
| PyZeroDivisionError               (* float division by a Python int 0 *)
| NpMatmulError                     (* numpy's ValueError from the @ operator *)
| NpBroadcastError                  (* numpy's ValueError from a failed broadcast *)
| NotModelled.                      (* operand ranks outside the modelled fragment *)

Definition raised_by_layer (e : PyError) : bool :=
  match e with
  | LayerValueError _ => true
  | _ => false
  end.

Inductive result (X : Type) : Type :=
| Ok (x : X)
| Err (e : PyError).
Arguments Ok {X} x.
Arguments Err {X} e.

Definition bind {X Y : Type} (r : result X) (k : X -> result Y) : result Y :=
  match r with
  | Ok x => k x
  | Err e => Err e
  end.

Definition is_ok {X : Type} (r : result X) : bool :=
  match r with
  | Ok _ => true
  | Err _ => false
  end.

(** ** Strings: [str.lower] on ASCII names *)

(** Names are strings of bytes, and [lower] is Python's [str.lower] on the
    ASCII ones: the letters A-Z (bytes 65-90) move to a-z and every other
    ASCII character is kept.  It is no model of [str.lower] on a name with a
    byte of 128 or more (Python lower-cases other alphabets too, and maps
    the Kelvin sign to k): what is stated of every name below is stated of
    the names [all_ascii] accepts wherever the difference could show. *)
Definition is_ascii (c : ascii) : bool := nat_of_ascii c <? 128.

Fixpoint all_ascii (s : string) : bool :=
  match s with
  | EmptyString => true
  | String c s' => is_ascii c && all_ascii s'
  end.

Definition lower_ascii (c : ascii) : ascii :=
  let n := nat_of_ascii c in
  if (65 <=? n) && (n <=? 90) then ascii_of_nat (n + 32) else c.

Fixpoint lower (s : string) : string :=
  match s with
  | EmptyString => EmptyString
  | String c s' => String (lower_ascii c) (lower s')
  end.

(** [DENSE_INITIALIZERS], line 6. *)
Definition DENSE_INITIALIZERS : list string :=
  ["zero"; "normal"; "xavier"; "kaiming"; "xavier uniform"; "kaiming uniform"].

(** A name is recognised case-insensitively when it agrees with one of the
    six strategy names once both are lower-cased. *)
Definition recognized (name : string) : Prop :=
  exists s, In s DENSE_INITIALIZERS /\ lower name = lower s.

(** [contains sub s]: [sub] occurs in [s] as a contiguous substring. *)
Fixpoint contains (sub s : string) : bool :=
  String.prefix sub s ||
  match s with
  | EmptyString => false
  | String _ s' => contains sub s'
  end.

(** The message of line 108, built from the already lower-cased name. *)
Definition unknown_message (lowered : string) : string :=
  ("Unknown dense weight initialization strategy '" ++ lowered ++ "' requested")%string.

(** ** Flat buffers *)

(** [np.prod(shape)]: the number of elements of an array of that shape. *)
Definition size_of (sh : list nat) : nat := fold_right Nat.mul 1 sh.

(** A buffer written by a list of (offset, value) stores, in order. *)
Definition apply_writes {A : Type} (ws : list (nat * A)) (d : list A) : list A :=
  fold_left (fun acc pv => <[fst pv := snd pv]> acc) ws d.

(** The buffer of a [rows] x [cols] array whose entry (i, j) is [f i j]. *)
Definition tabulate2 {A : Type} (rows cols : nat) (f : nat -> nat -> A) : list A :=
  flat_map (fun i => map (f i) (seq 0 cols)) (seq 0 rows).

(** ** The model of numpy and of the layer *)

Module Layers.

(** [np.sqrt(num / den)] is kept symbolic: the standard deviation and the
    limit of the random initialisers are square roots of ratios of Python
    numbers.  The division comes first and raises when [den] is the Python
    int 0. *)
Record SqrtRatio : Type := sqrt_ratio { numer : nat; denom : nat }.

Definition np_sqrt_div (num den : nat) : result SqrtRatio :=
  if den =? 0 then Err PyZeroDivisionError else Ok (sqrt_ratio num den).

(** The two distributions drawn from: [np.random.normal(loc=0.0, scale=s)]
    and [np.random.uniform(-l, l)]. *)
Inductive Dist : Type :=
| Normal (scale : SqrtRatio)
| Uniform (limit : SqrtRatio).

Section Layer.

(** Array elements. *)
Variable A : Type.
Variables zero one : A.
Variables add mul : A -> A -> A.

(** [.astype(np.float32)], elementwise. *)
Variable astype_float32 : A -> A.

(** The process-wide random generator of [np.random]: a draw of [count]
    samples consumes the generator state and returns the samples with the
    next state. *)
Variable Rng : Type.
Variable draw : Dist -> nat -> Rng -> list A * Rng.

(** *** Tensors *)

Record Tensor : Type := mkTensor { shape : list nat; data : list A }.

Definition ndim (t : Tensor) : nat := length (shape t).

(** The buffer holds exactly the elements the shape announces. *)
Definition wf_tensor (t : Tensor) : Prop := length (data t) = size_of (shape t).

(** [np.zeros(sh)] and [np.ones(sh)]. *)
Definition zeros (sh : list nat) : Tensor := mkTensor sh (repeat zero (size_of sh)).
Definition ones (sh : list nat) : Tensor := mkTensor sh (repeat one (size_of sh)).

(** Element reads of rank-1, rank-2 and rank-3 arrays. *)
Definition get1 (t : Tensor) (k : nat) : A := nth k (data t) zero.
Definition get2 (t : Tensor) (i j : nat) : A :=
  nth (i * nth 1 (shape t) 0 + j) (data t) zero.
Definition get3 (t : Tensor) (i k j : nat) : A :=
  nth ((i * nth 1 (shape t) 0 + k) * nth 2 (shape t) 0 + j) (data t) zero.

(** [x[None, :]]: a new leading axis of length 1 over the same buffer. *)
Definition expand_front (x : Tensor) : Tensor := mkTensor (1 :: shape x) (data x).

(** [x[i]] of a rank-2 array with rows of length [n]. *)
Definition row (n i : nat) (xd : list A) : list A := take n (drop (i * n) xd).

(** The sum over k < n of [f k * g k], accumulated in index order. *)
Definition dot (n : nat) (f g : nat -> A) : A :=
  fold_left (fun acc k => add acc (mul (f k) (g k))) (seq 0 n) zero.

(** [x @ w] for a rank-2 [w] of shape (n', m): the leading axes of [x] are
    a stack of rows of length n (for a rank-1 [x], a single row); numpy
    refuses a rank-0 [x] and a last axis n <> n'. *)
Definition matmul (x wt : Tensor) : result Tensor :=
  match shape wt with
  | [n'; m] =>
      match rev (shape x) with
      | [] => Err NpMatmulError
      | n :: lead =>
          if n =? n' then
            Ok (mkTensor (rev lead ++ [m])
                  (tabulate2 (size_of lead) m
                     (fun i j => dot n (fun k => nth (i * n + k) (data x) zero)
                                       (fun k => nth (k * m + j) (data wt) zero))))
          else Err NpMatmulError
      end
  | _ => Err NotModelled
  end.

(** The index actually read along an axis of length [d] that may be
    stretched by broadcasting. *)
Definition bc (d j : nat) : nat := if d =? 1 then 0 else j.

(** [y + bt] for a rank-1 [bt] of shape (m',), with numpy's broadcasting:
    the last axis m of [y] and m' must agree or one of them be 1. *)
Definition broadcast_add (y bt : Tensor) : result Tensor :=
  match shape bt with
  | [m'] =>
      let '(m, lead) := match rev (shape y) with
                        | [] => (1, [])
                        | m :: lead => (m, lead)
                        end in
      if (m =? m') || (m' =? 1) || (m =? 1) then
        let M := if m =? 1 then m' else m in
        Ok (mkTensor (rev lead ++ [M])
              (tabulate2 (size_of lead) M
                 (fun i j => add (nth (i * m + bc m j) (data y) zero)
                                 (nth (bc m' j) (data bt) zero))))
      else Err NpBroadcastError
  | _ => Err NotModelled
  end.

(** [g[:, j] = v] on the buffer of a rank-2 array of shape (n, m). *)
Definition set_column (n m j : nat) (v : list A) (d : list A) : list A :=
  apply_writes (map (fun k => (k * m + j, nth k v zero)) (seq 0 n)) d.

(** [g[i, :, j] = v] on the buffer of a rank-3 array of shape (_, n, m). *)
Definition set_lane (n m i j : nat) (v : list A) (d : list A) : list A :=
  apply_writes (map (fun k => ((i * n + k) * m + j, nth k v zero)) (seq 0 n)) d.

(** *** The layer *)

(** Modelled from the spec: the class [Variable] of [beras.core], which is
    not part of this file; the spec's Parameter is "an owned numeric array"
    with an identity for the optimizer, so wrapping an array keeps its
    shape and its values.  ([Variable] is a keyword here, hence the
    underscore.) *)
Definition Variable_ (t : Tensor) : Tensor := t.

(** A [Dense] object: the two attributes [__init__] assigns, and the
    attribute [inputs] that [get_weight_gradients] reads.  Nothing in
    [layers.py] assigns [inputs]: it belongs to the base class [Diffable]
    of [beras.core]; [None] is the attribute not being set. *)
Record Dense : Type := mkDense {
  w : Tensor;
  b : Tensor;
  inputs : option (list Tensor)
}.

(** [Dense._initialize_weight], lines 57-110. *)
Definition _initialize_weight (initializer : string) (input_size output_size : nat)
    (g : Rng) : result (Tensor * Tensor) * Rng :=
  let initializer := lower initializer in
  let random (d : Dist) :=
    let '(samples, g') := draw d (input_size * output_size) g in
    (Ok (Variable_ (mkTensor [input_size; output_size] (map astype_float32 samples)),
         Variable_ (zeros [output_size])), g') in
  if String.eqb initializer "zero" then
    (Ok (Variable_ (zeros [input_size; output_size]), Variable_ (zeros [output_size])), g)
  else if String.eqb initializer "normal" then
    random (Normal (sqrt_ratio 1 1))
  else if String.eqb initializer "xavier" then
    match np_sqrt_div 2 (input_size + output_size) with
    | Ok std => random (Normal std)
    | Err e => (Err e, g)
    end
  else if String.eqb initializer "kaiming" then
    match np_sqrt_div 2 input_size with
    | Ok std => random (Normal std)
    | Err e => (Err e, g)
    end
  else if String.eqb initializer "xavier uniform" then
    match np_sqrt_div 6 (input_size + output_size) with
    | Ok limit => random (Uniform limit)
    | Err e => (Err e, g)
    end
  else if String.eqb initializer "kaiming uniform" then
    match np_sqrt_div 6 input_size with
    | Ok limit => random (Uniform limit)
    | Err e => (Err e, g)
    end
  else
    (Err (LayerValueError
            ("Unknown dense weight initialization strategy '" ++ initializer
               ++ "' requested")%string), g).

(** [Dense.__init__], lines 10-11: on an exception nothing is assigned and
    no object is returned. *)
Definition __init__ (input_size output_size : nat) (initializer : string)
    (g : Rng) : result Dense * Rng :=
  match _initialize_weight initializer input_size output_size g with
  | (Ok (w0, b0), g') => (Ok (mkDense w0 b0 None), g')
  | (Err e, g') => (Err e, g')
  end.

(** [Dense.weights], lines 13-15. *)
Definition weights (self : Dense) : list Tensor := [w self; b self].

(** [Dense.forward], lines 17-23.  The rebinding of [x] is local and no
    attribute of [self] is assigned: the object comes back as it was. *)
Definition forward (self : Dense) (x : Tensor) : result Tensor * Dense :=
  let x := if ndim x =? 1 then expand_front x else x in
  (bind (matmul x (w self)) (fun y => broadcast_add y (b self)), self).

(** [Dense.get_input_gradients], lines 25-26. *)
Definition get_input_gradients (self : Dense) : result (list Tensor) :=
  Ok [w self].

(** [Dense.get_weight_gradients], lines 29-55. *)
Definition get_weight_gradients (self : Dense) : result (list Tensor) :=
  match inputs self with
  | None => Err (PyAttributeError "inputs")
  | Some [] => Err PyIndexError
  | Some (x :: _) =>
      match nth_error (shape (w self)) 1 with
      | None => Err PyIndexError
      | Some out_dim =>
          if ndim x =? 1 then
            let n := nth 0 (shape x) 0 in
            let w_grad := zeros [n; out_dim] in
            let w_grad :=
              fold_left (fun gr j => mkTensor (shape gr) (set_column n out_dim j (data x) (data gr)))
                        (seq 0 out_dim) w_grad in
            let b_grad := ones [out_dim] in
            Ok [w_grad; b_grad]
          else
            match shape x with
            | [batch_size; n] =>
                let w_grad := zeros [batch_size; n; out_dim] in
                let w_grad :=
                  fold_left
                    (fun gr i =>
                       fold_left
                         (fun gr j => mkTensor (shape gr)
                                        (set_lane n out_dim i j (row n i (data x)) (data gr)))
                         (seq 0 out_dim) gr)
                    (seq 0 batch_size) w_grad in
                let b_grad := ones [out_dim] in
                Ok [w_grad; b_grad]
            | _ => Err PyUnpackError
            end
      end
  end.

End Layer.

End Layers.
Import Layers.

Arguments mkTensor {A} shape data.
Arguments shape {A} t.
Arguments data {A} t.
Arguments mkDense {A} w b inputs.
Arguments w {A} d.
Arguments b {A} d.
Arguments inputs {A} d.
Arguments ndim {A} t.
Arguments wf_tensor {A} t.
Arguments expand_front {A} x.
Arguments weights {A} self.
Arguments get_input_gradients {A} self.

(** ** The vocabulary of the properties *)

(** What the spec calls a valid input of a layer with [input_size] inputs:
    a single sample (rank 1, counted as a batch of one) or a batch. *)
Definition valid_input {A : Type} (input_size batch_size : nat) (x : Tensor A) : Prop :=
  (shape x = [input_size] /\ batch_size = 1) \/ shape x = [batch_size; input_size].

(** The promotion of a rank-1 input to shape (1, n); other inputs are kept. *)
Definition promoted {A : Type} (x : Tensor A) : Tensor A :=
  if ndim x =? 1 then expand_front x else x.

(** The shapes [_initialize_weight] gives the two parameters. *)
Definition layer_shapes {A : Type} (input_size output_size : nat) (self : Dense A) : Prop :=
  shape (w self) = [input_size; output_size] /\ shape (b self) = [output_size].

(** ** The entries of a matrix product *)

Section Sums.

Context {A : Type} (zero : A) (add : A -> A -> A).

(** [t 0 + t 1 + ... + t (n - 1)], by recursion on the number of terms: the
    sum the spec's [x . W] stands for, written without reference to the way
    [dot] walks its indices. *)
Fixpoint sum_upto (n : nat) (t : nat -> A) : A :=
  match n with
  | 0 => zero
  | S n' => add (sum_upto n' t) (t n')
  end.

End Sums.

(** ** The gradient loops, store by store *)

Section Stores.

Context {A : Type} (zero : A).

(** The stores of the single-sample loop (lines 37-38) and of the batch
  loop (lines 49-51). *)
Definition column_writes (n m : nat) (xd : list A) : list (nat * A) :=
flat_map (fun j => map (fun k => (k * m + j, nth k xd zero)) (seq 0 n)) (seq 0 m).

Definition lane_writes (batch n m : nat) (xd : list A) : list (nat * A) :=
flat_map (fun i =>
  flat_map (fun j => map (fun k => ((i * n + k) * m + j, nth k (row A n i xd) zero))
                         (seq 0 n))
           (seq 0 m))
  (seq 0 batch).

End Stores.

(** ** The table of random strategies *)

(** Lines 81-105 read as a table: the distribution each lower-cased name
    other than "zero" draws W from.  The ratio under the square root is kept
    as written, denominator included. *)
Definition random_strategy (lowered : string) (input_size output_size : nat) : option Dist :=
  if String.eqb lowered "normal" then Some (Normal (sqrt_ratio 1 1))
  else if String.eqb lowered "xavier" then
    Some (Normal (sqrt_ratio 2 (input_size + output_size)))
  else if String.eqb lowered "kaiming" then Some (Normal (sqrt_ratio 2 input_size))
  else if String.eqb lowered "xavier uniform" then
    Some (Uniform (sqrt_ratio 6 (input_size + output_size)))
  else if String.eqb lowered "kaiming uniform" then Some (Uniform (sqrt_ratio 6 input_size))
  else None.

Definition dist_param (d : Dist) : SqrtRatio :=
  match d with
  | Normal scale => scale
  | Uniform limit => limit
  end.

(** Every element of a buffer repeated [m] times in a row. *)
Definition repeat_each {A : Type} (m : nat) (l : list A) : list A :=
  flat_map (fun a => repeat a m) l.

(** * The layer at the integers

    A concrete instance: integer elements with their exact arithmetic, a
    cast that changes nothing, and a generator that is a counter handing out
    0, 1, 2, ... *)

Definition counter_draw (d : Dist) (count : nat) (g : nat) : list Z * nat :=
  (map Z.of_nat (seq g count), g + count).

Definition Zinit := __init__ Z 0%Z (fun a => a) nat counter_draw.
Definition Zforward := forward Z 0%Z Z.add Z.mul.
Definition Zweight_gradients := get_weight_gradients Z 0%Z 1%Z.

(** The layer of the spec's scenarios: initialiser "zero", input_size 2,
    output_size 3, as [__init__] returns it. *)
Definition zero_layer : Dense Z :=
  mkDense (mkTensor [2; 3] [0; 0; 0; 0; 0; 0]%Z) (mkTensor [3] [0; 0; 0]%Z) None.

(** A layer of the same sizes with weights and bias that are not zero. *)
Definition some_layer : Dense Z :=
  mkDense (mkTensor [2; 3] [1; 2; 3; 4; 5; 6]%Z) (mkTensor [3] [10; 20; 30]%Z) None.

(** The inputs of the scenarios: the sample [1, 2], the batch
    [[1, 2], [3, 4]], and a sample of the wrong length. *)
Definition sample : Tensor Z := mkTensor [2] [1; 2]%Z.
Definition batch : Tensor Z := mkTensor [2; 2] [1; 2; 3; 4]%Z.
Definition long_sample : Tensor Z := mkTensor [3] [1; 2; 3]%Z.

(** A stack of two 1 x 2 batches (rank 3), and a batch without rows. *)
Definition stacked : Tensor Z := mkTensor [2; 1; 2] [1; 2; 3; 4]%Z.
Definition empty_batch : Tensor Z := mkTensor [0; 2] [].

(** A layer whose cache holds the given inputs. *)
Definition with_inputs (self : Dense Z) (xs : list (Tensor Z)) : Dense Z :=
  mkDense (w self) (b self) (Some xs).

(** ** The layer at binary64 floats

    The elements numpy really computes with: IEEE binary64 with its own
    addition and multiplication (the zeros of the "zero" initialiser are
    exact in float32 and in float64 alike).  The generator is never asked
    for more than zeros here. *)






(** * Lemmas on buffers *)

Section Buffers.

Context {A : Type}.
Implicit Types (d : list A) (ws : list (nat * A)).

Lemma nth_insert_eq (dflt : A) d i v :
  i < length d -> nth i (<[i := v]> d) dflt = v.
Proof.
  intros Hi. rewrite nth_lookup, list_lookup_insert_eq by exact Hi. reflexivity.
Qed.

Lemma nth_insert_ne (dflt : A) d i j v :
  i <> j -> nth j (<[i := v]> d) dflt = nth j d dflt.
Proof.
  intros Hne. rewrite !nth_lookup, list_lookup_insert_ne by exact Hne. reflexivity.
Qed.

Lemma apply_writes_app ws1 ws2 d :
  apply_writes (ws1 ++ ws2) d = apply_writes ws2 (apply_writes ws1 d).
Proof. unfold apply_writes. apply fold_left_app. Qed.

Lemma length_apply_writes ws d : length (apply_writes ws d) = length d.
Proof.
  revert d. induction ws as [|[p v] ws IH]; intros d; simpl; [reflexivity|].
  unfold apply_writes in *. simpl. rewrite IH. apply length_insert.
Qed.

(** A position no store targets keeps its value. *)
Lemma apply_writes_miss (dflt : A) ws d p :
  ~ In p (map fst ws) -> nth p (apply_writes ws d) dflt = nth p d dflt.
Proof.
  revert d. induction ws as [|[q v] ws IH]; intros d Hp; [reflexivity|].
  simpl in Hp. unfold apply_writes in *. simpl.
  rewrite IH by tauto. apply nth_insert_ne. tauto.
Qed.

(** A position inside the buffer that is stored to, and only ever with the
    value [v], holds [v] in the end. *)
Lemma apply_writes_hit (dflt : A) ws d p v :
  p < length d ->
  In p (map fst ws) ->
  (forall u, In (p, u) ws -> u = v) ->
  nth p (apply_writes ws d) dflt = v.
Proof.
  revert d. induction ws as [|[q u] ws IH]; intros d Hlen Hin Hval; [destruct Hin|].
  change (apply_writes ((q, u) :: ws) d) with (apply_writes ws (<[q := u]> d)).
  destruct (in_dec Nat.eq_dec p (map fst ws)) as [Hlater|Hlast].
  - apply IH; [rewrite length_insert; exact Hlen | exact Hlater |].
    intros u' Hu'. apply Hval. right. exact Hu'.
  - rewrite apply_writes_miss by exact Hlast.
    simpl in Hin. destruct Hin as [Heq|Hin]; [|contradiction].
    subst q. rewrite nth_insert_eq by exact Hlen.
    apply Hval. left. reflexivity.
Qed.

(** A loop whose every iteration stores a batch of values is one long
    sequence of stores. *)
Lemma fold_apply_writes {I : Type} (W : I -> list (nat * A)) (js : list I) d :
  fold_left (fun acc j => apply_writes (W j) acc) js d
  = apply_writes (flat_map W js) d.
Proof.
  revert d. induction js as [|j js IH]; intros d; simpl; [reflexivity|].
  rewrite IH, apply_writes_app. reflexivity.
Qed.

Lemma length_tabulate2 rows cols (f : nat -> nat -> A) :
  length (tabulate2 rows cols f) = rows * cols.
Proof.
  unfold tabulate2. generalize 0 at 2. induction rows as [|r IH]; intros s; simpl.
  - reflexivity.
  - rewrite length_app, length_map, length_seq, IH. reflexivity.
Qed.

Lemma nth_tabulate2 (dflt : A) rows cols (f : nat -> nat -> A) i j :
  i < rows -> j < cols ->
  nth (i * cols + j) (tabulate2 rows cols f) dflt = f i j.
Proof.
  unfold tabulate2.
  assert (G : forall r s i, i < r ->  j < cols ->
    nth (i * cols + j) (flat_map (fun i => map (f i) (seq 0 cols)) (seq s r)) dflt
    = f (s + i) j).
  { induction r as [|r IH]; intros s i' Hi Hj; [lia|]. simpl.
    destruct i' as [|i'].
    - simpl. rewrite app_nth1 by (rewrite length_map, length_seq; exact Hj).
      rewrite (nth_indep _ dflt (f s 0)) by (rewrite length_map, length_seq; exact Hj).
      rewrite map_nth, seq_nth by exact Hj. f_equal; lia.
    - rewrite app_nth2 by (rewrite length_map, length_seq; simpl; lia).
      rewrite length_map, length_seq.
      replace (S i' * cols + j - cols) with (i' * cols + j) by (simpl; lia).
      rewrite IH by lia. f_equal; lia. }
  intros Hi Hj. rewrite G by assumption. reflexivity.
Qed.

End Buffers.

(** Row-major offsets determine their coordinates. *)
Lemma offset_inj (m a j a' j' : nat) :
  j < m -> j' < m -> a * m + j = a' * m + j' -> a = a' /\ j = j'.
Proof.
  intros Hj Hj' H.
  destruct (Nat.lt_trichotomy a a') as [Hlt|[Heq|Hgt]].
  - assert (S a * m <= a' * m) by (apply Nat.mul_le_mono_r; lia). simpl in *. lia.
  - subst a'. split; [reflexivity | lia].
  - assert (S a' * m <= a * m) by (apply Nat.mul_le_mono_r; lia). simpl in *. lia.
Qed.

(** * Lemmas on names *)

Lemma prefix_append (sub rest : string) : String.prefix sub (sub ++ rest)%string = true.
Proof.
  induction sub as [|c sub IH]; simpl; [destruct rest; reflexivity|].
  destruct (Ascii.ascii_dec c c) as [_|Hne]; [exact IH | contradiction].
Qed.

Lemma contains_unfold (sub s : string) :
  contains sub s
  = String.prefix sub s || match s with
                           | EmptyString => false
                           | String _ s' => contains sub s'
                           end.
Proof. destruct s; reflexivity. Qed.

Lemma contains_append (sub before rest : string) :
  contains sub (before ++ sub ++ rest)%string = true.
Proof.
  induction before as [|c before IH].
  - change (("" ++ sub ++ rest)%string) with ((sub ++ rest)%string).
    rewrite contains_unfold, prefix_append. reflexivity.
  - change ((String c before ++ sub ++ rest)%string)
      with (String c (before ++ sub ++ rest)%string).
    rewrite contains_unfold, IH. apply orb_true_r.
Qed.

Lemma not_recognized_eqb name s :
  ~ recognized name -> In s DENSE_INITIALIZERS -> lower s = s ->
  String.eqb (lower name) s = false.
Proof.
  intros Hnot Hin Hs. destruct (String.eqb_spec (lower name) s) as [E|_]; [|reflexivity].
  exfalso. apply Hnot. exists s. split; [exact Hin | congruence].
Qed.

Lemma np_sqrt_div_pos num den : 0 < den -> np_sqrt_div num den = Ok (sqrt_ratio num den).
Proof.
  intros Hden. unfold np_sqrt_div. destruct (Nat.eqb_spec den 0); [lia | reflexivity].
Qed.

(** * Properties of the layer *)

Section Properties.

Variable A : Type.
Variables zero one : A.
Variables add mul : A -> A -> A.
Variable astype_float32 : A -> A.
Variable Rng : Type.
Variable draw : Dist -> nat -> Rng -> list A * Rng.

Local Abbreviation T := (Tensor A).
Local Abbreviation forward := (forward A zero add mul).
Local Abbreviation matmul := (matmul A zero add mul).
Local Abbreviation broadcast_add := (broadcast_add A zero add).
Local Abbreviation dot := (dot A zero add mul).
Local Abbreviation get1 := (get1 A zero).
Local Abbreviation get2 := (get2 A zero).
Local Abbreviation get3 := (get3 A zero).
Local Abbreviation zeros := (zeros A zero).
Local Abbreviation ones := (ones A one).
Local Abbreviation get_weight_gradients := (get_weight_gradients A zero one).
Local Abbreviation _initialize_weight := (_initialize_weight A zero astype_float32 Rng draw).
Local Abbreviation __init__ := (__init__ A zero astype_float32 Rng draw).
Local Abbreviation column_writes := (column_writes zero).
Local Abbreviation lane_writes := (lane_writes zero).

Lemma bc_id d j : j < d -> bc d j = j.
Proof.
  unfold bc. intros Hj. destruct (Nat.eqb_spec d 1) as [->|_]; [lia | reflexivity].
Qed.

Lemma promoted_valid input_size batch_size (x : T) :
  valid_input input_size batch_size x ->
  shape (promoted x) = [batch_size; input_size] /\ data (promoted x) = data x.
Proof.
  unfold valid_input, promoted, ndim.
  intros [[Hs ->]|Hs]; rewrite Hs; simpl; [rewrite Hs|]; auto.
Qed.

(** [x @ w] on a batch of rows against a matrix of matching height. *)
Lemma matmul_rank2 (x wt : T) batch n m :
  shape x = [batch; n] -> shape wt = [n; m] ->
  matmul x wt =
    Ok (mkTensor [batch; m]
          (tabulate2 batch m
             (fun i j => dot n (fun k => nth (i * n + k) (data x) zero)
                               (fun k => nth (k * m + j) (data wt) zero)))).
Proof.
  intros Hx Hw. unfold Layers.matmul. rewrite Hw, Hx. simpl.
  rewrite Nat.eqb_refl, Nat.mul_1_r. reflexivity.
Qed.

(** The last axis of [x] disagrees with the height of [w]: numpy raises. *)
Lemma matmul_mismatch (x wt : T) lead k n m :
  shape x = lead ++ [k] -> shape wt = [n; m] -> k <> n ->
  matmul x wt = Err NpMatmulError.
Proof.
  intros Hx Hw Hne. unfold Layers.matmul. rewrite Hw, Hx, rev_app_distr. simpl.
  destruct (Nat.eqb_spec k n); [contradiction | reflexivity].
Qed.

(** Adding a bias of the row length: every row gets the same bias. *)
Lemma broadcast_add_rows (y bt : T) batch m :
  shape y = [batch; m] -> shape bt = [m] ->
  exists r, broadcast_add y bt = Ok r /\ shape r = [batch; m] /\
    length (data r) = batch * m /\
    forall i j, i < batch -> j < m ->
      nth (i * m + j) (data r) zero
      = add (nth (i * m + j) (data y) zero) (nth j (data bt) zero).
Proof.
  intros Hy Hb. unfold Layers.broadcast_add. rewrite Hb, Hy. simpl.
  rewrite Nat.eqb_refl. simpl. rewrite Nat.mul_1_r.
  assert (HM : (if m =? 1 then m else m) = m) by (destruct (m =? 1); reflexivity).
  rewrite HM. eexists. split; [reflexivity|]. simpl.
  split; [reflexivity|]. split; [apply length_tabulate2|].
  intros i j Hi Hj. rewrite nth_tabulate2 by assumption.
  rewrite !bc_id by exact Hj. reflexivity.
Qed.

(** [dot] computes the sum of the products, term by term. *)
Lemma dot_sum_upto n (f h : nat -> A) :
  dot n f h = sum_upto zero add n (fun k => mul (f k) (h k)).
Proof using Type.
  unfold Layers.dot. induction n as [|n IH]; [reflexivity|].
  rewrite seq_S, fold_left_app, IH. reflexivity.
Qed.

(** C1. For a layer whose parameters have shapes (input_size, output_size)
    and (output_size,), and an input that is a single sample of length
    input_size or a batch of shape (batch_size, input_size), [forward]
    treats a single sample as a batch of one and returns a rank-2 array of
    shape (batch_size, output_size) whose entry (i, j) is the sum over
    k < input_size of x[i, k] * W[k, j] (x being the promoted input), plus
    b[j]: the matrix product x . W with the bias added to every row. *)
Theorem forward_affine (self : Dense A) (x : T) input_size output_size batch_size :
  layer_shapes input_size output_size self ->
  valid_input input_size batch_size x ->
  exists y,
    fst (forward self x) = Ok y /\
    shape y = [batch_size; output_size] /\
    wf_tensor y /\
    forall i j, i < batch_size -> j < output_size ->
      get2 y i j
      = add (sum_upto zero add input_size
               (fun k => mul (get2 (promoted x) i k) (get2 (w self) k j)))
            (get1 (b self) j).
Proof.
  intros [Hw Hb] Hx.
  destruct (promoted_valid _ _ _ Hx) as [Hps Hpd].
  unfold Layers.forward. fold (promoted x). simpl.
  rewrite (matmul_rank2 _ _ _ _ _ Hps Hw). simpl.
  edestruct (broadcast_add_rows
               (mkTensor [batch_size; output_size]
                  (tabulate2 batch_size output_size
                     (fun i j => dot input_size
                                   (fun k => nth (i * input_size + k) (data (promoted x)) zero)
                                   (fun k => nth (k * output_size + j) (data (w self)) zero))))
               (b self) batch_size output_size eq_refl Hb)
    as (r & Hr & Hrs & Hrl & Hrv).
  exists r. split; [exact Hr|]. split; [exact Hrs|]. split.
  - unfold wf_tensor. rewrite Hrs, Hrl. simpl. lia.
  - intros i j Hi Hj. unfold Layers.get2, Layers.get1.
    rewrite Hrs, Hps, Hw. simpl.
    rewrite Hrv by assumption. simpl. rewrite nth_tabulate2 by assumption.
    rewrite dot_sum_upto. reflexivity.
Qed.

(** *** The gradient loops as one sequence of stores *)

Lemma fold_tensor_writes {I : Type} (W : I -> list (nat * A)) (js : list I) (g : T) :
  fold_left (fun gr j => mkTensor (shape gr) (apply_writes (W j) (data gr))) js g
  = mkTensor (shape g) (apply_writes (flat_map W js) (data g)).
Proof.
  revert g. induction js as [|j js IH]; intros [sh d]; simpl; [reflexivity|].
  rewrite IH. simpl. rewrite apply_writes_app. reflexivity.
Qed.

Lemma fold_tensor_writes2 {I J : Type} (W : I -> J -> list (nat * A))
    (rs : list I) (js : list J) (g : T) :
  fold_left (fun gr i =>
               fold_left (fun gr j => mkTensor (shape gr) (apply_writes (W i j) (data gr)))
                         js gr) rs g
  = mkTensor (shape g) (apply_writes (flat_map (fun i => flat_map (W i) js) rs) (data g)).
Proof.
  revert g. induction rs as [|i rs IH]; intros [sh d]; simpl; [reflexivity|].
  rewrite fold_tensor_writes, IH. simpl. rewrite apply_writes_app. reflexivity.
Qed.

Lemma offset_lt n m k j : k < n -> j < m -> k * m + j < n * m.
Proof.
  intros Hk Hj. assert (S k * m <= n * m) by (apply Nat.mul_le_mono_r; lia).
  simpl in *. lia.
Qed.

Lemma nth_row n i k (xd : list A) :
  k < n -> nth k (row A n i xd) zero = nth (i * n + k) xd zero.
Proof.
  intros Hk. unfold row. rewrite !nth_lookup, lookup_take_lt, lookup_drop by exact Hk.
  reflexivity.
Qed.

Lemma column_writes_spec n m (xd d : list A) k j :
  length d = n * m -> k < n -> j < m ->
  nth (k * m + j) (apply_writes (column_writes n m xd) d) zero = nth k xd zero.
Proof.
  intros Hlen Hk Hj. apply apply_writes_hit.
  - rewrite Hlen. apply offset_lt; assumption.
  - apply in_map_iff. exists (k * m + j, nth k xd zero). split; [reflexivity|].
    apply in_flat_map. exists j. split; [apply in_seq; lia|].
    apply in_map_iff. exists k. split; [reflexivity | apply in_seq; lia].
  - intros u Hu. apply in_flat_map in Hu as (j' & Hj' & Hu).
    apply in_map_iff in Hu as (k' & Heq & Hk').
    apply in_seq in Hj'. injection Heq as Hoff Hval.
    destruct (offset_inj m k' j' k j) as [-> _]; [lia | exact Hj | exact Hoff |].
    symmetry. exact Hval.
Qed.

Lemma lane_writes_spec batch n m (xd d : list A) i k j :
  length d = batch * n * m -> i < batch -> k < n -> j < m ->
  nth ((i * n + k) * m + j) (apply_writes (lane_writes batch n m xd) d) zero
  = nth (i * n + k) xd zero.
Proof.
  intros Hlen Hi Hk Hj. apply apply_writes_hit.
  - rewrite Hlen. apply offset_lt; [apply offset_lt|]; assumption.
  - apply in_map_iff. exists ((i * n + k) * m + j, nth k (row A n i xd) zero).
    split; [reflexivity|].
    apply in_flat_map. exists i. split; [apply in_seq; lia|].
    apply in_flat_map. exists j. split; [apply in_seq; lia|].
    apply in_map_iff. exists k. split; [reflexivity | apply in_seq; lia].
  - intros u Hu. apply in_flat_map in Hu as (i' & Hi' & Hu).
    apply in_flat_map in Hu as (j' & Hj' & Hu).
    apply in_map_iff in Hu as (k' & Heq & Hk').
    apply in_seq in Hj'. apply in_seq in Hk'. injection Heq as Hoff Hval.
    destruct (offset_inj m (i' * n + k') j' (i * n + k) j) as [Hrow _];
      [lia | exact Hj | exact Hoff |].
    destruct (offset_inj n i' k' i k) as [-> ->]; [lia | exact Hk | exact Hrow |].
    rewrite <- Hval. apply nth_row. exact Hk.
Qed.

(** What [get_weight_gradients] returns on a rank-1 cached input. *)
Lemma get_weight_gradients_rank1 (self : Dense A) (x : T) rest n input_size output_size :
  inputs self = Some (x :: rest) ->
  shape (w self) = [input_size; output_size] ->
  shape x = [n] ->
  get_weight_gradients self
  = Ok [mkTensor [n; output_size]
          (apply_writes (column_writes n output_size (data x))
                        (repeat zero (size_of [n; output_size])));
        ones [output_size]].
Proof.
  intros Hin Hw Hx. unfold Layers.get_weight_gradients, ndim.
  rewrite Hin, Hw, Hx. cbn [nth_error length Nat.eqb nth].
  unfold set_column. rewrite fold_tensor_writes. reflexivity.
Qed.

(** What [get_weight_gradients] returns on a rank-2 cached input. *)
Lemma get_weight_gradients_rank2 (self : Dense A) (x : T) rest batch n
    input_size output_size :
  inputs self = Some (x :: rest) ->
  shape (w self) = [input_size; output_size] ->
  shape x = [batch; n] ->
  get_weight_gradients self
  = Ok [mkTensor [batch; n; output_size]
          (apply_writes (lane_writes batch n output_size (data x))
                        (repeat zero (size_of [batch; n; output_size])));
        ones [output_size]].
Proof.
  intros Hin Hw Hx. unfold Layers.get_weight_gradients, ndim.
  rewrite Hin, Hw, Hx. cbn [nth_error length Nat.eqb nth].
  unfold set_lane. rewrite fold_tensor_writes2. reflexivity.
Qed.

(** *** Weight and bias gradients *)

(** C2. With a cached input [x] and W of shape (input_size, output_size):
    when [x] is a single sample of length input_size the first gradient has
    shape (input_size, output_size) and each of its columns is [x]; when [x]
    is a batch of shape (batch_size, input_size) it has shape
    (batch_size, input_size, output_size) and every column of its slice i is
    the row [x[i]]. *)
Theorem weight_gradient_columns (self : Dense A) (x : T) rest input_size output_size :
  inputs self = Some (x :: rest) ->
  shape (w self) = [input_size; output_size] ->
  (shape x = [input_size] ->
   exists w_grad b_grad,
     get_weight_gradients self = Ok [w_grad; b_grad] /\
     shape w_grad = [input_size; output_size] /\
     wf_tensor w_grad /\
     forall k j, k < input_size -> j < output_size ->
       get2 w_grad k j = get1 x k)
  /\
  (forall batch_size, shape x = [batch_size; input_size] ->
   exists w_grad b_grad,
     get_weight_gradients self = Ok [w_grad; b_grad] /\
     shape w_grad = [batch_size; input_size; output_size] /\
     wf_tensor w_grad /\
     forall i k j, i < batch_size -> k < input_size -> j < output_size ->
       get3 w_grad i k j = get2 x i k).
Proof.
  intros Hin Hw. split.
  - intros Hx. do 2 eexists.
    split; [exact (get_weight_gradients_rank1 _ _ _ _ _ _ Hin Hw Hx)|].
    split; [reflexivity|]. split.
    + unfold wf_tensor. cbn [data shape]. rewrite length_apply_writes, repeat_length.
      reflexivity.
    + intros k j Hk Hj. unfold Layers.get2, Layers.get1. cbn [data shape nth].
      apply column_writes_spec; [|exact Hk|exact Hj].
      rewrite repeat_length. simpl. lia.
  - intros batch_size Hx. do 2 eexists.
    split; [exact (get_weight_gradients_rank2 _ _ _ _ _ _ _ Hin Hw Hx)|].
    split; [reflexivity|]. split.
    + unfold wf_tensor. cbn [data shape]. rewrite length_apply_writes, repeat_length.
      reflexivity.
    + intros i k j Hi Hk Hj. unfold Layers.get3, Layers.get2.
      rewrite Hx. cbn [data shape nth].
      apply lane_writes_spec; [|exact Hi|exact Hk|exact Hj].
      rewrite repeat_length. simpl. lia.
Qed.

(** C3. With a cached input of rank 1 or of rank 2, whatever its length or
    batch size, the second gradient is the rank-1 array of output_size
    ones: it has no batch axis. *)
Theorem bias_gradient_ones (self : Dense A) (x : T) rest input_size output_size :
  inputs self = Some (x :: rest) ->
  shape (w self) = [input_size; output_size] ->
  ndim x = 1 \/ ndim x = 2 ->
  exists w_grad b_grad,
    get_weight_gradients self = Ok [w_grad; b_grad] /\
    shape b_grad = [output_size] /\
    data b_grad = repeat one output_size.
Proof.
  intros Hin Hw Hrank.
  assert (Hones : data (ones [output_size]) = repeat one output_size).
  { simpl. rewrite Nat.mul_1_r. reflexivity. }
  unfold ndim in Hrank. destruct Hrank as [H1|H2].
  - destruct (shape x) as [|n [|? ?]] eqn:Hx; try discriminate.
    do 2 eexists.
    split; [exact (get_weight_gradients_rank1 _ _ _ _ _ _ Hin Hw Hx)|].
    split; [reflexivity | exact Hones].
  - destruct (shape x) as [|bs [|n [|? ?]]] eqn:Hx; try discriminate.
    do 2 eexists.
    split; [exact (get_weight_gradients_rank2 _ _ _ _ _ _ _ Hin Hw Hx)|].
    split; [reflexivity | exact Hones].
Qed.

(** *** The cache *)

(** C4 (as amended). [forward] writes no cache: the promotion of a rank-1
    input is a local rebinding, and the object, cached inputs included, is
    after the call what it was before.  [get_weight_gradients] then
    computes from the cached value as it is stored: for a cached rank-1
    input of length n it returns a weight gradient of shape
    (n, output_size), without a batch axis. *)
Theorem forward_leaves_cache (self : Dense A) (x : T) :
  snd (forward self x) = self /\
  forall c rest n input_size output_size,
    inputs self = Some (c :: rest) ->
    shape (w self) = [input_size; output_size] ->
    shape c = [n] ->
    exists w_grad b_grad,
      get_weight_gradients (snd (forward self x)) = Ok [w_grad; b_grad] /\
      shape w_grad = [n; output_size].
Proof.
  split; [reflexivity|].
  intros c rest n input_size output_size Hin Hw Hc.
  change (snd (forward self x)) with self.
  rewrite (get_weight_gradients_rank1 _ _ _ _ _ _ Hin Hw Hc).
  do 2 eexists. split; reflexivity.
Qed.

(** *** Failures *)

(** C5 (as amended). For an input of rank 1 or more whose last axis differs
    from input_size, [forward] fails with the error numpy's matrix product
    raises; the layer makes no shape check of its own. *)
Theorem forward_shape_mismatch (self : Dense A) (x : T) lead k input_size output_size :
  layer_shapes input_size output_size self ->
  shape x = lead ++ [k] ->
  k <> input_size ->
  fst (forward self x) = Err NpMatmulError /\
  raised_by_layer NpMatmulError = false.
Proof.
  intros [Hw _] Hx Hne. split; [|reflexivity].
  unfold Layers.forward. cbn [fst].
  destruct (ndim x =? 1).
  - rewrite (matmul_mismatch (expand_front x) (w self) (1 :: lead) k input_size output_size);
      [reflexivity | simpl; rewrite Hx; reflexivity | exact Hw | exact Hne].
  - rewrite (matmul_mismatch x (w self) lead k input_size output_size);
      [reflexivity | exact Hx | exact Hw | exact Hne].
Qed.

Lemma __init___inputs input_size output_size initializer g self g' :
  __init__ input_size output_size initializer g = (Ok self, g') ->
  inputs self = None.
Proof.
  unfold Layers.__init__.
  destruct (_initialize_weight initializer input_size output_size g) as [[[w0 b0]|e] g0];
    intros H; inversion H. reflexivity.
Qed.

(** C6 (as amended). On a layer that [__init__] has just returned,
    [get_weight_gradients] fails at its first statement, reading the
    attribute [inputs] that was never set: the interpreter's attribute
    error, not an error of the layer.  [get_input_gradients] does not read
    the cache and succeeds with [[W]]. *)
Theorem fresh_layer_gradients input_size output_size initializer g (self : Dense A) g' :
  __init__ input_size output_size initializer g = (Ok self, g') ->
  get_weight_gradients self = Err (PyAttributeError "inputs") /\
  raised_by_layer (PyAttributeError "inputs") = false /\
  get_input_gradients self = Ok [w self].
Proof.
  intros Hinit. apply __init___inputs in Hinit.
  unfold Layers.get_weight_gradients. rewrite Hinit. repeat split.
Qed.

(** C10. In every state of the layer, with or without cached inputs,
    [get_input_gradients] returns the one-element list holding W itself,
    the first element of [weights]: the same array, hence of shape
    (input_size, output_size), not transposed and without a batch axis. *)
Theorem input_gradient_is_W (self : Dense A) :
  get_input_gradients self = Ok [w self] /\
  head (weights self) = Some (w self) /\
  forall input_size output_size,
    layer_shapes input_size output_size self ->
    exists t, get_input_gradients self = Ok [t] /\
              shape t = [input_size; output_size] /\ data t = data (w self).
Proof.
  split; [reflexivity|]. split; [reflexivity|].
  intros input_size output_size [Hw _]. exists (w self). repeat split. exact Hw.
Qed.

(** *** Construction *)

(** For an ASCII name that matches none of the six strategies
    case-insensitively, construction fails with the layer's own ValueError,
    whose message quotes the lower-cased form of the name; no layer and no
    parameter comes back, and the random generator has not been touched. *)
Theorem unknown_initializer_fails (name : string) input_size output_size (g : Rng) :
  all_ascii name = true ->
  ~ recognized name ->
  __init__ input_size output_size name g
    = (Err (LayerValueError (unknown_message (lower name))), g) /\
  raised_by_layer (LayerValueError (unknown_message (lower name))) = true /\
  contains (lower name) (unknown_message (lower name)) = true.
Proof using Type.
  intros _ Hnot. split; [|split; [reflexivity | apply contains_append]].
  unfold Layers.__init__, Layers._initialize_weight. cbv zeta.
  rewrite !(not_recognized_eqb name)
  by (first [exact Hnot | reflexivity | simpl; auto 10]).
  reflexivity.
Qed.

(** C8. For a name that matches one of the six strategies
    case-insensitively and a positive input_size, construction succeeds;
    [weights] is the two-element list [[W; b]]; W has shape
    (input_size, output_size) and as many elements, and b is the rank-1
    array of output_size zeros.  (numpy draws as many samples as are asked
    for: the premise on [draw].) *)
Theorem construction_succeeds (name : string) input_size output_size (g : Rng) :
  (forall d n g0, length (fst (draw d n g0)) = n) ->
  recognized name ->
  0 < input_size ->
  exists self g',
    __init__ input_size output_size name g = (Ok self, g') /\
    weights self = [w self; b self] /\
    length (weights self) = 2 /\
    shape (w self) = [input_size; output_size] /\
    wf_tensor (w self) /\
    shape (b self) = [output_size] /\
    data (b self) = repeat zero output_size.
Proof.
  intros Hdraw (s & Hin & Hlow) Hpos.
  assert (Hb : data (zeros [output_size]) = repeat zero output_size).
  { simpl. rewrite Nat.mul_1_r. reflexivity. }
  assert (Hrandom : forall d,
    exists samples g', draw d (input_size * output_size) g = (samples, g') /\
                       length samples = input_size * output_size).
  { intros d. specialize (Hdraw d (input_size * output_size) g).
    destruct (draw d (input_size * output_size) g) as [samples g'].
    exists samples, g'. split; [reflexivity | exact Hdraw]. }
  assert (Hl : lower name = s).
  { rewrite Hlow. simpl in Hin.
    destruct Hin as [<-|[<-|[<-|[<-|[<-|[<-|[]]]]]]]; reflexivity. }
  unfold Layers.__init__, Layers._initialize_weight. cbv zeta. rewrite Hl.
  simpl in Hin.
  destruct Hin as [<-|[<-|[<-|[<-|[<-|[<-|[]]]]]]];
    cbn [String.eqb Ascii.eqb Bool.eqb];
    rewrite ?np_sqrt_div_pos by lia.
  all: try match goal with
       | |- context [draw ?d _ _] =>
           destruct (Hrandom d) as (samples & g' & Hd & Hlen); rewrite Hd
       end.
  all: do 2 eexists; (split; [reflexivity|]); cbn [w b weights shape data Variable_].
  all: repeat split; try exact Hb.
  all: unfold wf_tensor; simpl; rewrite ?repeat_length, ?length_map, ?Hlen; lia.
Qed.

(** *** The zero initialiser *)





End Properties.

Example zero_layer_constructed : Zinit 2 3 "zero" 0 = (Ok zero_layer, 0).
Proof. reflexivity. Qed.

Example forward_sample : fst (Zforward some_layer sample) = Ok (mkTensor [1; 3] [19; 32; 45]%Z).
Proof. reflexivity. Qed.

Example forward_batch :
  fst (Zforward some_layer batch) = Ok (mkTensor [2; 3] [19; 32; 45; 29; 46; 63]%Z).
Proof. reflexivity. Qed.

Example gradients_sample :
  Zweight_gradients (with_inputs zero_layer [sample])
  = Ok [mkTensor [2; 3] [1; 1; 1; 2; 2; 2]%Z; mkTensor [3] [1; 1; 1]%Z].
Proof. reflexivity. Qed.

Example gradients_batch :
  Zweight_gradients (with_inputs zero_layer [batch])
  = Ok [mkTensor [2; 2; 3] [1; 1; 1; 2; 2; 2; 3; 3; 3; 4; 4; 4]%Z; mkTensor [3] [1; 1; 1]%Z].
Proof. reflexivity. Qed.

Lemma forward_affine_witness :
  layer_shapes 2 3 some_layer /\ valid_input 2 1 sample /\
  exists y, fst (Zforward some_layer sample) = Ok y /\ shape y = [1; 3] /\ wf_tensor y /\
            get2 Z 0%Z y 0 0 = 19%Z /\ get2 Z 0%Z y 0 1 = 32%Z /\ get2 Z 0%Z y 0 2 = 45%Z.
Proof.
  assert (Hl : layer_shapes 2 3 some_layer) by (split; reflexivity).
  assert (Hv : valid_input 2 1 sample) by (left; split; reflexivity).
  split; [exact Hl|]. split; [exact Hv|].
  destruct (forward_affine Z 0%Z Z.add Z.mul some_layer sample 2 3 1 Hl Hv)
    as (y & Hy & Hs & Hwf & Hentry).
  exists y. split; [exact Hy|]. split; [exact Hs|]. split; [exact Hwf|].
  split; [|split]; rewrite Hentry by lia; reflexivity.
Defined.

Lemma weight_gradient_columns_witness :
  (exists w_grad b_grad,
     Zweight_gradients (with_inputs zero_layer [sample]) = Ok [w_grad; b_grad] /\
     shape w_grad = [2; 3]) /\
  (exists w_grad b_grad,
     Zweight_gradients (with_inputs zero_layer [batch]) = Ok [w_grad; b_grad] /\
     shape w_grad = [2; 2; 3]).
Proof.
  split.
  - destruct (proj1 (weight_gradient_columns Z 0%Z 1%Z
                       (with_inputs zero_layer [sample]) sample [] 2 3 eq_refl eq_refl) eq_refl)
      as (wg & bg & H & Hs & _).
    exists wg, bg. split; [exact H | exact Hs].
  - destruct (proj2 (weight_gradient_columns Z 0%Z 1%Z
                       (with_inputs zero_layer [batch]) batch [] 2 3 eq_refl eq_refl) 2 eq_refl)
      as (wg & bg & H & Hs & _).
    exists wg, bg. split; [exact H | exact Hs].
Defined.

Lemma bias_gradient_ones_witness :
  ndim batch = 2 /\
  exists w_grad b_grad,
    Zweight_gradients (with_inputs zero_layer [batch]) = Ok [w_grad; b_grad] /\
    shape b_grad = [3] /\ data b_grad = [1; 1; 1]%Z.
Proof.
  split; [reflexivity|].
  exact (bias_gradient_ones Z 0%Z 1%Z (with_inputs zero_layer [batch]) batch [] 2 3
           eq_refl eq_refl (or_intror eq_refl)).
Defined.

(** C4, the claim as written, fails.  After [forward] on the sample [1, 2],
    a fresh layer still has no cached input; and a layer whose cache holds
    the sample as it was passed still holds that rank-1 array, not the
    promoted one of shape (1, 2). *)
Lemma forward_cache_not_promoted :
  valid_input 2 1 sample /\
  (~ exists rest, inputs (snd (Zforward zero_layer sample)) = Some (promoted sample :: rest)) /\
  (~ exists rest,
       inputs (snd (Zforward (with_inputs zero_layer [sample]) sample))
       = Some (promoted sample :: rest)).
Proof.
  split; [left; split; reflexivity|].
  split; intros [rest H]; simpl in H; discriminate H.
Qed.

Lemma forward_leaves_cache_witness :
  snd (Zforward (with_inputs zero_layer [sample]) sample) = with_inputs zero_layer [sample] /\
  exists w_grad b_grad,
    Zweight_gradients (snd (Zforward (with_inputs zero_layer [sample]) sample))
    = Ok [w_grad; b_grad] /\
    shape w_grad = [2; 3].
Proof.
  destruct (forward_leaves_cache Z 0%Z 1%Z Z.add Z.mul
              (with_inputs zero_layer [sample]) sample) as [Hsame Hgrad].
  split; [exact Hsame|].
  exact (Hgrad sample [] 2 2 3 eq_refl eq_refl eq_refl).
Defined.

(** C5, the claim as written, fails.  A sample of length 3 given to the layer
    with input_size 2 makes [forward] fail, but with numpy's error, which no
    statement of the layer raised. *)
Lemma forward_mismatch_not_dedicated :
  layer_shapes 2 3 zero_layer /\ shape long_sample = [3] /\
  ~ exists e, fst (Zforward zero_layer long_sample) = Err e /\ raised_by_layer e = true.
Proof.
  split; [split; reflexivity|]. split; [reflexivity|].
  intros (e & He & Hraised). vm_compute in He. injection He as <-. discriminate Hraised.
Qed.

Lemma forward_shape_mismatch_witness :
  layer_shapes 2 3 zero_layer /\ shape long_sample = [] ++ [3] /\ 3 <> 2 /\
  fst (Zforward zero_layer long_sample) = Err NpMatmulError.
Proof.
  assert (Hl : layer_shapes 2 3 zero_layer) by (split; reflexivity).
  assert (Hne : 3 <> 2) by lia.
  split; [exact Hl|]. split; [reflexivity|]. split; [exact Hne|].
  exact (proj1 (forward_shape_mismatch Z 0%Z Z.add Z.mul zero_layer long_sample [] 3 2 3
                  Hl eq_refl Hne)).
Defined.

(** C6, the claim as written, fails.  On the layer [__init__] has just
    returned, [get_input_gradients] succeeds, and the failure of
    [get_weight_gradients] is the interpreter's attribute error. *)
Lemma fresh_gradients_not_state_error :
  Zinit 2 3 "zero" 0 = (Ok zero_layer, 0) /\
  get_input_gradients zero_layer = Ok [w zero_layer] /\
  (~ exists e, get_input_gradients zero_layer = Err e) /\
  (~ exists e, Zweight_gradients zero_layer = Err e /\ raised_by_layer e = true).
Proof.
  split; [reflexivity|]. split; [reflexivity|]. split.
  - intros [e He]. discriminate He.
  - intros (e & He & Hraised). vm_compute in He. injection He as <-. discriminate Hraised.
Qed.

Lemma fresh_layer_gradients_witness :
  Zinit 2 3 "zero" 0 = (Ok zero_layer, 0) /\
  Zweight_gradients zero_layer = Err (PyAttributeError "inputs") /\
  get_input_gradients zero_layer = Ok [w zero_layer].
Proof.
  split; [reflexivity|].
  destruct (fresh_layer_gradients Z 0%Z 1%Z (fun a => a) nat counter_draw
              2 3 "zero" 0 zero_layer 0 eq_refl) as (Hw & _ & Hi).
  split; [exact Hw | exact Hi].
Defined.

Lemma input_gradient_is_W_witness :
  layer_shapes 2 3 some_layer /\
  exists t, get_input_gradients some_layer = Ok [t] /\ shape t = [2; 3] /\
            data t = [1; 2; 3; 4; 5; 6]%Z.
Proof.
  assert (Hl : layer_shapes 2 3 some_layer) by (split; reflexivity).
  split; [exact Hl|].
  exact (proj2 (proj2 (input_gradient_is_W Z some_layer)) 2 3 Hl).
Defined.

Lemma FOO_not_recognized : ~ recognized "FOO".
Proof.
  intros (s & Hin & Hlow). simpl in Hin.
  destruct Hin as [<-|[<-|[<-|[<-|[<-|[<-|[]]]]]]]; vm_compute in Hlow; discriminate Hlow.
Qed.


Lemma unknown_initializer_fails_witness :
  all_ascii "FOO" = true /\ ~ recognized "FOO" /\
  Zinit 2 3 "FOO" 7
  = (Err (LayerValueError "Unknown dense weight initialization strategy 'foo' requested"), 7).
Proof.
  split; [reflexivity|]. split; [exact FOO_not_recognized|].
  exact (proj1 (unknown_initializer_fails Z 0%Z (fun a => a) nat counter_draw
                  "FOO" 2 3 7 eq_refl FOO_not_recognized)).
Defined.

Lemma counter_draw_length (d : Dist) (count g : nat) :
  length (fst (counter_draw d count g)) = count.
Proof. unfold counter_draw. simpl. rewrite length_map, length_seq. reflexivity. Qed.

Lemma Xavier_Uniform_recognized : recognized "Xavier Uniform".
Proof. exists "xavier uniform". split; [simpl; tauto | reflexivity]. Qed.

Lemma construction_succeeds_witness :
  recognized "Xavier Uniform" /\ 0 < 2 /\
  exists self g',
    Zinit 2 3 "Xavier Uniform" 4 = (Ok self, g') /\
    weights self = [w self; b self] /\
    shape (w self) = [2; 3] /\ wf_tensor (w self) /\
    shape (b self) = [3] /\ data (b self) = [0; 0; 0]%Z.
Proof.
  assert (Hpos : 0 < 2) by lia.
  split; [exact Xavier_Uniform_recognized|]. split; [exact Hpos|].
  destruct (construction_succeeds Z 0%Z (fun a => a) nat counter_draw
              "Xavier Uniform" 2 3 4 counter_draw_length Xavier_Uniform_recognized Hpos)
    as (self & g' & Hinit & Hws & _ & Hw & Hwf & Hb & Hbd).
  exists self, g'. repeat split; assumption.
Defined.



(** * Further properties of the layer *)

Lemma lower_ascii_idempotent (c : ascii) : lower_ascii (lower_ascii c) = lower_ascii c.
Proof. destruct c as [[] [] [] [] [] [] [] []]; reflexivity. Qed.

Lemma lower_idempotent (s : string) : lower (lower s) = lower s.
Proof.
  induction s as [|c s IH]; simpl; [reflexivity|].
  rewrite lower_ascii_idempotent, IH. reflexivity.
Qed.

Lemma size_of_app (sh1 sh2 : list nat) : size_of (sh1 ++ sh2) = size_of sh1 * size_of sh2.
Proof.
  induction sh1 as [|d sh1 IH]; simpl; [lia|]. rewrite IH. lia.
Qed.

Lemma size_of_rev (sh : list nat) : size_of (rev sh) = size_of sh.
Proof.
  induction sh as [|d sh IH]; simpl; [reflexivity|].
  rewrite size_of_app, IH. simpl. lia.
Qed.

Lemma length_repeat_each {A : Type} (m : nat) (l : list A) :
  length (repeat_each m l) = length l * m.
Proof.
  unfold repeat_each. induction l as [|a l IH]; simpl; [reflexivity|].
  rewrite length_app, repeat_length, IH. reflexivity.
Qed.

Lemma nth_repeat_each {A : Type} (dflt : A) (m : nat) (l : list A) (k j : nat) :
  k < length l -> j < m -> nth (k * m + j) (repeat_each m l) dflt = nth k l dflt.
Proof.
  unfold repeat_each. revert k. induction l as [|a l IH]; intros k Hk Hj; simpl in *; [lia|].
  destruct k as [|k].
  - simpl. rewrite app_nth1 by (rewrite repeat_length; exact Hj).
    apply nth_repeat_lt. exact Hj.
  - rewrite app_nth2 by (rewrite repeat_length; simpl; lia).
    rewrite repeat_length.
    replace (S k * m + j - m) with (k * m + j) by (simpl; lia).
    apply IH; [lia | exact Hj].
Qed.

Section Construction.

Variable A : Type.
Variable zero : A.
Variable astype_float32 : A -> A.
Variable Rng : Type.
Variable draw : Dist -> nat -> Rng -> list A * Rng.

Local Abbreviation __init__ := (__init__ A zero astype_float32 Rng draw).
Local Abbreviation zeros := (zeros A zero).

(** Construction looks at the name only through [str.lower]: a name and its
    lower-cased form build the same layer, or fail alike. *)
Theorem construction_case_insensitive (name : string) input_size output_size (g : Rng) :
  __init__ input_size output_size name g = __init__ input_size output_size (lower name) g.
Proof using Type.
  unfold Layers.__init__, Layers._initialize_weight. cbv zeta.
  rewrite lower_idempotent. reflexivity.
Qed.

Lemma random_strategy_not_zero lowered input_size output_size d :
  random_strategy lowered input_size output_size = Some d ->
  String.eqb lowered "zero" = false.
Proof using Type.
  intros H. destruct (String.eqb_spec lowered "zero") as [->|_]; [|reflexivity].
  discriminate H.
Qed.

(** A name of the table whose ratio has a positive denominator: W is one
    draw of input_size * output_size samples from the table's distribution,
    cast elementwise, b is all zeros, nothing is cached, and the generator
    has advanced by exactly that draw. *)
Theorem random_initializer_draw (name : string) input_size output_size (g : Rng) (d : Dist) :
  random_strategy (lower name) input_size output_size = Some d ->
  0 < denom (dist_param d) ->
  __init__ input_size output_size name g
  = (Ok (mkDense (mkTensor [input_size; output_size]
                    (map astype_float32 (fst (draw d (input_size * output_size) g))))
                 (zeros [output_size]) None),
     snd (draw d (input_size * output_size) g)).
Proof using Type.
  intros Hd Hden.
  pose proof (random_strategy_not_zero _ _ _ _ Hd) as Hz.
  unfold Layers.__init__, Layers._initialize_weight. cbv zeta. rewrite Hz.
  unfold random_strategy in Hd.
  repeat match type of Hd with
         | (if String.eqb ?a ?s then _ else _) = _ =>
             destruct (String.eqb a s) eqn:?
         end;
    try discriminate Hd; injection Hd as <-; simpl in Hden;
    rewrite ?np_sqrt_div_pos by exact Hden;
    destruct (draw _ (input_size * output_size) g) as [samples g']; reflexivity.
Qed.

(** A name of the table whose ratio has denominator 0 ("kaiming" with
    input_size 0, "xavier" with both sizes 0): the division of line 87, 93,
    98 or 103 raises before anything is drawn; no layer is built and the
    generator is untouched. *)
Theorem random_initializer_zero_division (name : string) input_size output_size
    (g : Rng) (d : Dist) :
  random_strategy (lower name) input_size output_size = Some d ->
  denom (dist_param d) = 0 ->
  __init__ input_size output_size name g = (Err PyZeroDivisionError, g).
Proof using Type.
  intros Hd Hden.
  pose proof (random_strategy_not_zero _ _ _ _ Hd) as Hz.
  unfold Layers.__init__, Layers._initialize_weight. cbv zeta. rewrite Hz.
  unfold random_strategy in Hd.
  repeat match type of Hd with
         | (if String.eqb ?a ?s then _ else _) = _ =>
             destruct (String.eqb a s) eqn:?
         end;
    try discriminate Hd; injection Hd as <-; simpl in Hden;
    try discriminate Hden;
    unfold np_sqrt_div; rewrite Hden; reflexivity.
Qed.

End Construction.

Section ForwardMore.

Variable A : Type.
Variable zero : A.
Variables add mul : A -> A -> A.

Local Abbreviation T := (Tensor A).
Local Abbreviation forward := (forward A zero add mul).
Local Abbreviation matmul := (matmul A zero add mul).
Local Abbreviation broadcast_add := (broadcast_add A zero add).
Local Abbreviation dot := (dot A zero add mul).
Local Abbreviation get2 := (get2 A zero).

Lemma dot_ext n (f f' h : nat -> A) :
  (forall k, k < n -> f k = f' k) -> dot n f h = dot n f' h.
Proof using Type.
  intros Hf. unfold Layers.dot.
  assert (G : forall l acc, (forall k, In k l -> k < n) ->
            fold_left (fun a k => add a (mul (f k) (h k))) l acc
            = fold_left (fun a k => add a (mul (f' k) (h k))) l acc).
  { induction l as [|k l IH]; intros acc Hl; simpl; [reflexivity|].
    rewrite Hf by (apply Hl; left; reflexivity).
    apply IH. intros k' Hk'. apply Hl. right. exact Hk'. }
  apply G. intros k Hk. apply in_seq in Hk. lia.
Qed.

(** [x @ w] for an input of any rank >= 1 whose last axis fits. *)
Lemma matmul_stack (x wt : T) lead n m :
  shape x = lead ++ [n] -> shape wt = [n; m] ->
  exists y, matmul x wt = Ok y /\ shape y = lead ++ [m] /\ wf_tensor y.
Proof using Type.
  intros Hx Hw. unfold Layers.matmul. rewrite Hw, Hx, rev_app_distr. simpl.
  rewrite Nat.eqb_refl, rev_involutive. eexists. split; [reflexivity|].
  split; [reflexivity|]. unfold wf_tensor. simpl.
  rewrite length_tabulate2, size_of_app, size_of_rev. simpl. lia.
Qed.

Lemma broadcast_add_stack (y bt : T) lead m :
  shape y = lead ++ [m] -> shape bt = [m] ->
  exists r, broadcast_add y bt = Ok r /\ shape r = lead ++ [m] /\ wf_tensor r.
Proof using Type.
  intros Hy Hb. unfold Layers.broadcast_add. rewrite Hb, Hy, rev_app_distr. simpl.
  rewrite Nat.eqb_refl. simpl.
  assert (HM : (if m =? 1 then m else m) = m) by (destruct (m =? 1); reflexivity).
  rewrite HM, rev_involutive. eexists. split; [reflexivity|].
  split; [reflexivity|]. unfold wf_tensor. simpl.
  rewrite length_tabulate2, size_of_app, size_of_rev. simpl. lia.
Qed.

(** The output of [forward] on a valid input, row by row. *)
Lemma forward_rows (self : Dense A) (x : T) input_size output_size batch_size :
  layer_shapes input_size output_size self ->
  valid_input input_size batch_size x ->
  exists y,
    fst (forward self x) = Ok y /\
    shape y = [batch_size; output_size] /\
    wf_tensor y /\
    forall i j, i < batch_size -> j < output_size ->
      get2 y i j
      = add (dot input_size (fun k => nth (i * input_size + k) (data x) zero)
                            (fun k => nth (k * output_size + j) (data (w self)) zero))
            (nth j (data (b self)) zero).
Proof using Type.
  intros [Hw Hb] Hx.
  destruct (promoted_valid A _ _ _ Hx) as [Hps Hpd].
  unfold Layers.forward. fold (promoted x). cbn [fst].
  rewrite (matmul_rank2 A zero add mul _ _ _ _ _ Hps Hw). cbn [bind].
  edestruct (broadcast_add_rows A zero add
               (mkTensor [batch_size; output_size]
                  (tabulate2 batch_size output_size
                     (fun i j => dot input_size
                                   (fun k => nth (i * input_size + k) (data (promoted x)) zero)
                                   (fun k => nth (k * output_size + j) (data (w self)) zero))))
               (b self) batch_size output_size eq_refl Hb)
    as (r & Hr & Hrs & Hrl & Hrv).
  exists r. split; [exact Hr|]. split; [exact Hrs|]. split.
  - unfold wf_tensor. rewrite Hrs, Hrl. simpl. lia.
  - intros i j Hi Hj. unfold Layers.get2. rewrite Hrs. cbn [nth].
    rewrite Hrv by assumption. cbn [data]. rewrite nth_tabulate2 by assumption.
    rewrite Hpd. reflexivity.
Qed.

Lemma forward_stack (self : Dense A) (x : T) d lead input_size output_size :
  layer_shapes input_size output_size self ->
  shape x = d :: lead ++ [input_size] ->
  exists y, fst (forward self x) = Ok y /\
            shape y = d :: lead ++ [output_size] /\ wf_tensor y.
Proof using Type.
  intros [Hw Hb] Hx. unfold Layers.forward, ndim. rewrite Hx. cbn [fst length].
  rewrite length_app. simpl.
  replace (length lead + 1 =? 0) with false by (symmetry; apply Nat.eqb_neq; lia).
  destruct (matmul_stack x (w self) (d :: lead) input_size output_size Hx Hw)
    as (y & Hy & Hys & _).
  rewrite Hy. simpl.
  exact (broadcast_add_stack y (b self) (d :: lead) output_size Hys Hb).
Qed.

Lemma forward_mismatch_error (self : Dense A) (x : T) lead k input_size output_size :
  layer_shapes input_size output_size self ->
  shape x = lead ++ [k] ->
  k <> input_size ->
  fst (forward self x) = Err NpMatmulError.
Proof using Type.
  intros [Hw _] Hx Hne. unfold Layers.forward. cbn [fst].
  destruct (ndim x =? 1).
  - rewrite (matmul_mismatch A zero add mul (expand_front x) (w self) (1 :: lead) k
               input_size output_size);
      [reflexivity | simpl; rewrite Hx; reflexivity | exact Hw | exact Hne].
  - rewrite (matmul_mismatch A zero add mul x (w self) lead k input_size output_size);
      [reflexivity | exact Hx | exact Hw | exact Hne].
Qed.

(** [forward] does not look at the rank of a batch: an input with any
    number (at least one) of leading axes and a last axis of length
    input_size gives an output with the same leading axes and a last axis of
    length output_size. *)
Theorem forward_keeps_leading_axes (self : Dense A) (x : T) d lead input_size output_size :
  layer_shapes input_size output_size self ->
  shape x = d :: lead ++ [input_size] ->
  exists y, fst (forward self x) = Ok y /\
            shape y = d :: lead ++ [output_size] /\ wf_tensor y.
Proof using Type. exact (forward_stack self x d lead input_size output_size). Qed.

(** When [forward] succeeds: exactly on the inputs of rank at least 1 whose
    last axis has length input_size.  A rank-0 input is refused as well. *)
Theorem forward_succeeds_iff (self : Dense A) (x : T) input_size output_size :
  layer_shapes input_size output_size self ->
  is_ok (fst (forward self x)) = true <-> exists lead, shape x = lead ++ [input_size].
Proof using Type.
  intros Hl. split.
  - intros Hok. destruct (shape x) as [|d0 sh] eqn:Hx using rev_ind.
    + exfalso. destruct Hl as [Hw _].
      unfold Layers.forward, ndim, Layers.matmul in Hok. rewrite Hx, Hw in Hok.
      simpl in Hok. rewrite Hx in Hok. discriminate Hok.
    + clear IHsh. destruct (Nat.eq_dec d0 input_size) as [->|Hne]; [exists sh; reflexivity|].
      exfalso.
      rewrite (forward_mismatch_error self x sh d0 input_size output_size Hl Hx Hne) in Hok.
      discriminate Hok.
  - intros [lead Hx]. destruct lead as [|d lead].
    + destruct (forward_rows self x input_size output_size 1 Hl)
        as (y & Hy & _); [left; split; [exact Hx | reflexivity]|].
      rewrite Hy. reflexivity.
    + destruct (forward_stack self x d lead input_size output_size Hl Hx)
        as (y & Hy & _).
      rewrite Hy. reflexivity.
Qed.

(** A single sample is treated exactly as the batch of one that holds it. *)
Theorem forward_single_is_batch_of_one (self : Dense A) (x : T) :
  ndim x = 1 -> fst (forward self x) = fst (forward self (expand_front x)).
Proof using Type.
  intros Hx. unfold Layers.forward, ndim in *. simpl. rewrite Hx. reflexivity.
Qed.

(** The rows of a batch do not influence one another: row i of the output
    for a batch is the output for the sample [x[i]] alone. *)
Theorem forward_batch_rowwise (self : Dense A) (x : T) input_size output_size batch_size i :
  layer_shapes input_size output_size self ->
  shape x = [batch_size; input_size] ->
  i < batch_size ->
  exists y yi,
    fst (forward self x) = Ok y /\
    fst (forward self (mkTensor [input_size] (row A input_size i (data x)))) = Ok yi /\
    shape yi = [1; output_size] /\
    forall j, j < output_size -> get2 y i j = get2 yi 0 j.
Proof using Type.
  intros Hl Hx Hi.
  destruct (forward_rows self x input_size output_size batch_size Hl
              (or_intror Hx)) as (y & Hy & Hys & _ & Hyv).
  destruct (forward_rows self
              (mkTensor [input_size] (row A input_size i (data x)))
              input_size output_size 1 Hl (or_introl (conj eq_refl eq_refl)))
    as (yi & Hyi & Hyis & _ & Hyiv).
  exists y, yi. split; [exact Hy|]. split; [exact Hyi|]. split; [exact Hyis|].
  intros j Hj. rewrite Hyv by assumption. rewrite Hyiv by (try exact Hj; lia).
  f_equal. apply dot_ext. intros k Hk. cbn [data].
  rewrite (nth_row A zero) by exact Hk. reflexivity.
Qed.

(** An empty batch is not an error: the output is the empty array of shape
    (0, output_size). *)
Theorem forward_empty_batch (self : Dense A) (x : T) input_size output_size :
  layer_shapes input_size output_size self ->
  shape x = [0; input_size] ->
  fst (forward self x) = Ok (mkTensor [0; output_size] []).
Proof using Type.
  intros Hl Hx.
  destruct (forward_rows self x input_size output_size 0 Hl (or_intror Hx))
    as ([sh d] & Hy & Hys & Hwf & _).
  rewrite Hy. simpl in Hys. subst sh. unfold wf_tensor in Hwf. simpl in Hwf.
  destruct d; [reflexivity | discriminate Hwf].
Qed.

End ForwardMore.

Section GradientsMore.

Variable A : Type.
Variables zero one : A.

Local Abbreviation T := (Tensor A).
Local Abbreviation get_weight_gradients := (get_weight_gradients A zero one).
Local Abbreviation ones := (ones A one).

Lemma split_offset m p bound :
  p < bound * m -> exists r j, p = r * m + j /\ r < bound /\ j < m.
Proof using Type.
  intros Hp. assert (Hm : m <> 0) by (intros ->; lia).
  exists (p / m), (p mod m). split; [|split].
  - rewrite (Nat.mul_comm (p / m)). apply Nat.div_mod_eq.
  - apply Nat.Div0.div_lt_upper_bound. lia.
  - apply Nat.mod_upper_bound. exact Hm.
Qed.

(** The whole weight gradient at once, for a well-formed cached input of
    rank 1 or 2: its shape is the shape of the cached input with one more
    axis of length W.shape[1], and its buffer is the buffer of the cached
    input with every element repeated that many times.  The values of W and
    b play no part. *)
Theorem weight_gradient_buffer (self : Dense A) (x : T) rest input_size output_size :
  inputs self = Some (x :: rest) ->
  shape (w self) = [input_size; output_size] ->
  wf_tensor x ->
  ndim x = 1 \/ ndim x = 2 ->
  get_weight_gradients self
  = Ok [mkTensor (shape x ++ [output_size]) (repeat_each output_size (data x));
        ones [output_size]].
Proof using Type.
  intros Hin Hw Hwf Hrank. unfold ndim in Hrank. unfold wf_tensor in Hwf.
  destruct Hrank as [H1|H2].
  - destruct (shape x) as [|n [|? ?]] eqn:Hx; try discriminate. clear H1.
    simpl in Hwf. rewrite Nat.mul_1_r in Hwf.
    rewrite (get_weight_gradients_rank1 A zero one self x rest n input_size output_size
               Hin Hw Hx).
    do 2 f_equal. simpl. f_equal.
    apply (nth_ext _ _ zero zero).
    + rewrite length_apply_writes, repeat_length, length_repeat_each, Hwf. lia.
    + intros p Hp. rewrite length_apply_writes, repeat_length, Nat.mul_1_r in Hp.
      destruct (split_offset output_size p n Hp) as (k & j & -> & Hk & Hj).
      rewrite (column_writes_spec A zero n output_size) by
        (first [assumption | rewrite repeat_length; lia]).
      rewrite nth_repeat_each by (first [exact Hj | rewrite Hwf; exact Hk]).
      reflexivity.
  - destruct (shape x) as [|bs [|n [|? ?]]] eqn:Hx; try discriminate. clear H2.
    simpl in Hwf. rewrite Nat.mul_1_r in Hwf.
    rewrite (get_weight_gradients_rank2 A zero one self x rest bs n input_size output_size
               Hin Hw Hx).
    do 2 f_equal. simpl. f_equal.
    apply (nth_ext _ _ zero zero).
    + rewrite length_apply_writes, repeat_length, length_repeat_each, Hwf. lia.
    + intros p Hp. rewrite length_apply_writes, repeat_length, Nat.mul_1_r in Hp.
      rewrite Nat.mul_assoc in Hp.
      destruct (split_offset output_size p (bs * n) Hp) as (r & j & -> & Hr & Hj).
      destruct (split_offset n r bs Hr) as (i & k & -> & Hi & Hk).
      rewrite (lane_writes_spec A zero bs n output_size) by
        (first [assumption | rewrite repeat_length; lia]).
      rewrite nth_repeat_each by (first [exact Hj | rewrite Hwf; exact Hr]).
      reflexivity.
Qed.

(** When [get_weight_gradients] succeeds, for a W of rank 2: exactly when
    the cache is set, holds at least one input, and the first one has rank 1
    or 2.  An unset cache, an empty one, a rank-0 input or one of rank 3 or
    more each make it raise. *)
Theorem weight_gradients_succeed_iff (self : Dense A) input_size output_size :
  shape (w self) = [input_size; output_size] ->
  is_ok (get_weight_gradients self) = true
  <-> exists x rest, inputs self = Some (x :: rest) /\ (ndim x = 1 \/ ndim x = 2).
Proof using Type.
  intros Hw. split.
  - unfold Layers.get_weight_gradients, ndim. rewrite Hw.
    destruct (inputs self) as [[|x rest]|]; simpl; try discriminate.
    intros Hok. exists x, rest. split; [reflexivity|].
    destruct (shape x) as [|d0 [|d1 [|d2 sh]]]; simpl in *;
      first [discriminate Hok | left; reflexivity | right; reflexivity].
  - intros (x & rest & Hin & [H1|H2]); unfold ndim in *.
    + destruct (shape x) as [|n [|? ?]] eqn:Hx; try discriminate.
      rewrite (get_weight_gradients_rank1 A zero one self x rest n input_size output_size
                 Hin Hw Hx). reflexivity.
    + destruct (shape x) as [|bs [|n [|? ?]]] eqn:Hx; try discriminate.
      rewrite (get_weight_gradients_rank2 A zero one self x rest bs n input_size output_size
                 Hin Hw Hx). reflexivity.
Qed.

End GradientsMore.

Lemma random_initializer_draw_witness :
  random_strategy (lower "Xavier") 2 3 = Some (Normal (sqrt_ratio 2 5)) /\
  Zinit 2 3 "Xavier" 4
  = (Ok (mkDense (mkTensor [2; 3] [4; 5; 6; 7; 8; 9]%Z) (mkTensor [3] [0; 0; 0]%Z) None), 10).
Proof.
  split; [reflexivity|].
  assert (Hden : 0 < denom (dist_param (Normal (sqrt_ratio 2 5)))) by (simpl; lia).
  exact (random_initializer_draw Z 0%Z (fun a => a) nat counter_draw "Xavier" 2 3 4
           (Normal (sqrt_ratio 2 5)) eq_refl Hden).
Defined.

Lemma random_initializer_zero_division_witness :
  random_strategy (lower "Kaiming") 0 3 = Some (Normal (sqrt_ratio 2 0)) /\
  Zinit 0 3 "Kaiming" 4 = (Err PyZeroDivisionError, 4).
Proof.
  split; [reflexivity|].
  exact (random_initializer_zero_division Z 0%Z (fun a => a) nat counter_draw "Kaiming" 0 3 4
           (Normal (sqrt_ratio 2 0)) eq_refl eq_refl).
Defined.

Lemma forward_keeps_leading_axes_witness :
  layer_shapes 2 3 some_layer /\ shape stacked = 2 :: [1] ++ [2] /\
  exists y, fst (Zforward some_layer stacked) = Ok y /\ shape y = [2; 1; 3] /\ wf_tensor y.
Proof.
  assert (Hl : layer_shapes 2 3 some_layer) by (split; reflexivity).
  split; [exact Hl|]. split; [reflexivity|].
  exact (forward_keeps_leading_axes Z 0%Z Z.add Z.mul some_layer stacked 2 [1] 2 3 Hl eq_refl).
Defined.

Lemma forward_succeeds_iff_witness :
  layer_shapes 2 3 some_layer /\
  is_ok (fst (Zforward some_layer sample)) = true /\
  ~ exists lead, shape long_sample = lead ++ [2].
Proof.
  assert (Hl : layer_shapes 2 3 some_layer) by (split; reflexivity).
  split; [exact Hl|]. split.
  - apply (proj2 (forward_succeeds_iff Z 0%Z Z.add Z.mul some_layer sample 2 3 Hl)).
    exists []. reflexivity.
  - intros Hlead.
    apply (proj2 (forward_succeeds_iff Z 0%Z Z.add Z.mul some_layer long_sample 2 3 Hl))
      in Hlead.
    discriminate Hlead.
Defined.

Lemma forward_single_is_batch_of_one_witness :
  ndim sample = 1 /\
  fst (Zforward some_layer sample) = fst (Zforward some_layer (mkTensor [1; 2] [1; 2]%Z)).
Proof.
  split; [reflexivity|].
  exact (forward_single_is_batch_of_one Z 0%Z Z.add Z.mul some_layer sample eq_refl).
Defined.

Lemma forward_batch_rowwise_witness :
  layer_shapes 2 3 some_layer /\ shape batch = [2; 2] /\ 1 < 2 /\
  exists y yi,
    fst (Zforward some_layer batch) = Ok y /\
    fst (Zforward some_layer (mkTensor [2] [3; 4]%Z)) = Ok yi /\
    forall j, j < 3 -> get2 Z 0%Z y 1 j = get2 Z 0%Z yi 0 j.
Proof.
  assert (Hl : layer_shapes 2 3 some_layer) by (split; reflexivity).
  assert (Hi : 1 < 2) by lia.
  split; [exact Hl|]. split; [reflexivity|]. split; [exact Hi|].
  destruct (forward_batch_rowwise Z 0%Z Z.add Z.mul some_layer batch 2 3 2 1 Hl eq_refl Hi)
    as (y & yi & Hy & Hyi & _ & Hrows).
  exists y, yi. split; [exact Hy|]. split; [exact Hyi | exact Hrows].
Defined.

Lemma forward_empty_batch_witness :
  layer_shapes 2 3 some_layer /\ shape empty_batch = [0; 2] /\
  fst (Zforward some_layer empty_batch) = Ok (mkTensor [0; 3] []).
Proof.
  assert (Hl : layer_shapes 2 3 some_layer) by (split; reflexivity).
  split; [exact Hl|]. split; [reflexivity|].
  exact (forward_empty_batch Z 0%Z Z.add Z.mul some_layer empty_batch 2 3 Hl eq_refl).
Defined.

Lemma weight_gradient_buffer_witness :
  wf_tensor batch /\ ndim batch = 2 /\
  Zweight_gradients (with_inputs some_layer [batch; sample])
  = Ok [mkTensor [2; 2; 3] [1; 1; 1; 2; 2; 2; 3; 3; 3; 4; 4; 4]%Z; mkTensor [3] [1; 1; 1]%Z].
Proof.
  assert (Hwf : wf_tensor batch) by reflexivity.
  split; [exact Hwf|]. split; [reflexivity|].
  exact (weight_gradient_buffer Z 0%Z 1%Z (with_inputs some_layer [batch; sample]) batch
           [sample] 2 3 eq_refl eq_refl Hwf (or_intror eq_refl)).
Defined.

Lemma weight_gradients_succeed_iff_witness :
  shape (w some_layer) = [2; 3] /\
  is_ok (Zweight_gradients (with_inputs some_layer [sample])) = true /\
  ~ exists x rest, inputs (with_inputs some_layer []) = Some (x :: rest) /\
                   (ndim x = 1 \/ ndim x = 2).
Proof.
  split; [reflexivity|]. split.
  - apply (proj2 (weight_gradients_succeed_iff Z 0%Z 1%Z
                    (with_inputs some_layer [sample]) 2 3 eq_refl)).
    exists sample, []. split; [reflexivity | left; reflexivity].
  - intros Hex.
    apply (proj2 (weight_gradients_succeed_iff Z 0%Z 1%Z
                    (with_inputs some_layer []) 2 3 eq_refl)) in Hex.
    discriminate Hex.
Defined.
